(** * Flocker volume manager prototype: naming scheme and branch protocol

    A shallow embedding of [prototype/flocker.py].  Python 2 byte strings are
    [string]s, the [FlockerBranch] named tuple is a record, exceptions are an
    inductive type carried by [outcome], and the calls made to the external
    [zfs] command are recorded in a trace threaded through a small
    state-and-exception monad. *)

From Stdlib Require Import String Ascii List Bool ZArith Lia.
Import ListNotations.
Local Open Scope string_scope.
Local Open Scope list_scope.

(** ** Byte-string primitives used by the prototype *)

Module PyStr.

(** [sep in s] for a one-byte [sep]. *)
Fixpoint contains (sep : ascii) (s : string) : bool :=
  match s with
  | EmptyString => false
  | String c rest => if Ascii.eqb c sep then true else contains sep rest
  end.

(** [s.split(sep)] for a one-byte [sep]: never the empty list, one token more
    than there are separators, empty tokens kept. *)
Fixpoint split (sep : ascii) (s : string) : list string :=
  match s with
  | EmptyString => [EmptyString]
  | String c rest =>
      if Ascii.eqb c sep then EmptyString :: split sep rest
      else match split sep rest with
           | [] => [String c EmptyString]
           | tok :: toks => String c tok :: toks
           end
  end.

(** [sep.join(parts)]. *)
Definition join (sep : string) (parts : list string) : string :=
  String.concat sep parts.

(** Number of occurrences of a byte. *)
Fixpoint count (sep : ascii) (s : string) : nat :=
  match s with
  | EmptyString => 0
  | String c rest => (if Ascii.eqb c sep then 1 else 0) + count sep rest
  end.

End PyStr.

(** ** Exceptions and results *)

Definition argv := list string.

(** The exceptions the prototype can raise: [TypeError] from the named
    tuple's constructor, the [ValueError] of [branchOffBranch], and
    [subprocess.CalledProcessError] from [check_call]. *)
Inductive exn : Type :=
| TypeError
| ValueError (msg : string)
| CalledProcessError (returncode : Z) (cmd : argv).

Inductive outcome (A : Type) : Type :=
| Ok (a : A)
| Raise (e : exn).
Arguments Ok {A} a.
Arguments Raise {A} e.

Definition is_ok {A} (r : outcome A) : bool :=
  match r with Ok _ => true | Raise _ => false end.

(** ** Commands run so far, and the monad that threads them *)

Definition trace := list argv.

Definition M (A : Type) : Type := trace -> outcome A * trace.

Definition ret {A} (a : A) : M A := fun tr => (Ok a, tr).

Definition raise {A} (e : exn) : M A := fun tr => (Raise e, tr).

Definition bind {A B} (m : M A) (k : A -> M B) : M B :=
  fun tr =>
    match m tr with
    | (Ok a, tr') => k a tr'
    | (Raise e, tr') => (Raise e, tr')
    end.

Declare Scope py_scope.
Delimit Scope py_scope with py.
Notation "m ;; k" := (bind m (fun _ => k))
  (at level 61, right associativity) : py_scope.

(** The outside world: the exit status the [zfs] binary gives a command,
    given the commands already run, and the directory listing of a path. *)
Record World : Type := mkWorld
  { exit_status : trace -> argv -> Z;
    listdir : string -> list string }.

(** [zfs( *arguments )]: run the command, raise on a non-zero exit code. *)
Definition zfs (w : World) (arguments : argv) : M unit :=
  fun tr =>
    let cmd := "zfs" :: arguments in
    let rc := exit_status w tr cmd in
    (if Z.eqb rc 0 then Ok tt else Raise (CalledProcessError rc cmd),
     tr ++ [cmd]).

(** ** [FlockerBranch] *)

Module FlockerBranch.

Record t : Type := mk
  { flockerName : string; volume : string; branch : string }.

(** Calling the named tuple's constructor [cls] on an unpacked list of
    arguments: anything but three positional arguments is a [TypeError]. *)
Definition new (parts : list string) : outcome t :=
  match parts with
  | [f; v; b] => Ok (mk f v b)
  | _ => Raise TypeError
  end.

(** Iterating over the named tuple, as [b"/".join(branch)] does. *)
Definition fields (self : t) : list string :=
  [flockerName self; volume self; branch self].

Definition datasetName (self : t) (poolName : string) : string :=
  poolName ++ "/" ++
  PyStr.join "." [flockerName self; volume self; branch self].

Definition fromDatasetName (datasetName : string) : outcome t :=
  new (PyStr.split "." datasetName).

Definition fromBranchName (branchName thisFlockerName : string) : outcome t :=
  let parts := PyStr.split "/" branchName in
  let parts := if Nat.eqb (length parts) 2 then thisFlockerName :: parts
               else parts in
  new parts.

End FlockerBranch.

(** ** [Flocker] *)

Module Flocker.

Record t : Type := mk
  { poolName : string; mountRoot : string; flockerName : string }.

(** [__init__]: the pool is mounted at [/<poolName>], and the pool name is
    re-used as the name of this instance. *)
Definition init (poolName : string) : t :=
  mk poolName ("/" ++ poolName) poolName.

Definition createVolume (w : World) (self : t) (volumeName : string) : M unit :=
  let trunk : string :=
    FlockerBranch.datasetName
      (FlockerBranch.mk (flockerName self) volumeName "trunk")
      (poolName self) in
  zfs w ["create"; trunk].

(** The name appended to the result in the body of the loop of
    [listVolumes]: [volume/branch] for a branch of this instance, the three
    fields joined by [/] otherwise. *)
Definition formatForDisplay (branch : FlockerBranch.t) (localOwner : string)
  : string :=
  if String.eqb (FlockerBranch.flockerName branch) localOwner
  then FlockerBranch.volume branch ++ "/" ++ FlockerBranch.branch branch
  else PyStr.join "/" (FlockerBranch.fields branch).

(** The [for] loop of [listVolumes] over the remaining entries, [result]
    being the list built so far.  An exception leaves the loop at once. *)
Fixpoint listVolumes_loop (self : t) (entries : list string)
    (result : list string) : outcome (list string) :=
  match entries with
  | [] => Ok result
  | branchName :: entries' =>
      if negb (PyStr.contains "." branchName)
      then listVolumes_loop self entries' result
      else
        match FlockerBranch.fromDatasetName branchName with
        | Raise e => Raise e
        | Ok branch =>
            listVolumes_loop self entries'
              (result ++ [formatForDisplay branch (flockerName self)])
        end
  end.

Definition listVolumes (w : World) (self : t) : outcome (list string) :=
  listVolumes_loop self (listdir w (mountRoot self)) [].

Definition branchOffBranch (w : World) (self : t)
    (newBranch fromBranch : FlockerBranch.t) : M unit :=
  if negb (String.eqb (FlockerBranch.volume newBranch)
                      (FlockerBranch.volume fromBranch))
  then raise (ValueError "Can't create branches across volumes")
  else
    let snapshotName :=
      (FlockerBranch.datasetName fromBranch (poolName self) ++ "@" ++
       FlockerBranch.branch newBranch)%string in
    (zfs w ["snapshot"; snapshotName] ;;
     zfs w ["clone"; snapshotName;
            FlockerBranch.datasetName newBranch (poolName self)])%py.

End Flocker.

(** ** The decoder as the specification words it

    The specification describes a decoder that first drops the pool's
    leading path segment and then demands three non-empty tokens.  These two
    definitions follow that wording, to be compared with
    [FlockerBranch.fromDatasetName]. *)

Fixpoint after_first (sep : ascii) (s : string) : option string :=
  match s with
  | EmptyString => None
  | String c rest => if Ascii.eqb c sep then Some rest else after_first sep rest
  end.

Definition spec_relative_suffix (s : string) : string :=
  match after_first "/" s with
  | Some rest => rest
  | None => s
  end.

Definition spec_decode_accepts (s : string) : bool :=
  match PyStr.split "." (spec_relative_suffix s) with
  | [a; b; c] =>
      negb (String.eqb a "") && negb (String.eqb b "") && negb (String.eqb c "")
  | _ => false
  end.

(** ** The listing as the specification words it

    Entry by entry: nothing for an entry without a dot, the short form
    [volume/branch] for a three-token entry of the local owner, the long
    form [owner/volume/branch] for a three-token entry of another owner. *)

Definition spec_display_entry (localOwner entry : string) : list string :=
  if PyStr.contains "." entry then
    match PyStr.split "." entry with
    | [owner; vol; br] =>
        [if String.eqb owner localOwner then vol ++ "/" ++ br
         else owner ++ "/" ++ vol ++ "/" ++ br]%string
    | _ => []
    end
  else [].

Definition spec_listVolumes (localOwner : string) (listing : list string)
  : list string :=
  flat_map (spec_display_entry localOwner) listing.

(** An entry [listVolumes] can display or skip: no dot at all, or exactly
    three dot-separated tokens. *)
Definition well_formed_entry (entry : string) : bool :=
  negb (PyStr.contains "." entry)
  || Nat.eqb (length (PyStr.split "." entry)) 3.

(** ** Worlds used in the examples *)

(** Every command succeeds; nothing is mounted. *)
Definition quiet_world : World := mkWorld (fun _ _ => 0%Z) (fun _ => []).

(** Every command succeeds; [entries] is what every directory lists. *)
Definition world_listing (entries : list string) : World :=
  mkWorld (fun _ _ => 0%Z) (fun _ => entries).

(** [zfs clone] exits with status 1, every other command succeeds. *)
Definition clone_fails_world : World :=
  mkWorld (fun _ cmd => match cmd with
                        | _ :: sub :: _ => if String.eqb sub "clone" then 1%Z else 0%Z
                        | _ => 0%Z
                        end)
          (fun _ => []).

(** ** The command line

    The option classes hold what the option parser stored in them.  Their
    [run] and [postOptions] methods act on the state of the process: the
    commands run so far and the lines printed on the standard output. *)

(** What can leave a method of the command line: an exception of the volume
    manager passing through, or one raised by the option classes. *)
Inductive cli_exn : Type :=
| Uncaught (e : exn)
| UsageError (msg : string)
| NotImplementedError (msg : string).

Inductive cli_outcome (A : Type) : Type :=
| Returned (a : A)
| Raised (e : cli_exn).
Arguments Returned {A} a.
Arguments Raised {A} e.

Record Process : Type := mkProcess
  { commands : trace; stdout : list string }.

Definition IO (A : Type) : Type := Process -> cli_outcome A * Process.

Definition io_ret {A} (a : A) : IO A := fun p => (Returned a, p).

Definition io_raise {A} (e : cli_exn) : IO A := fun p => (Raised e, p).

Definition io_bind {A B} (m : IO A) (k : A -> IO B) : IO B :=
  fun p =>
    match m p with
    | (Returned a, p') => k a p'
    | (Raised e, p') => (Raised e, p')
    end.

Declare Scope io_scope.
Delimit Scope io_scope with io.
Notation "x <- m ;; k" := (io_bind m (fun x => k))
  (at level 61, m at next level, right associativity) : io_scope.
Notation "m ;; k" := (io_bind m (fun _ => k))
  (at level 61, right associativity) : io_scope.

(** A call into the volume manager that runs commands. *)
Definition run_M {A} (m : M A) : IO A :=
  fun p =>
    match m (commands p) with
    | (Ok a, tr) => (Returned a, mkProcess tr (stdout p))
    | (Raise e, tr) => (Raised (Uncaught e), mkProcess tr (stdout p))
    end.

(** A call into the volume manager that runs none. *)
Definition of_outcome {A} (r : outcome A) : IO A :=
  fun p =>
    match r with
    | Ok a => (Returned a, p)
    | Raise e => (Raised (Uncaught e), p)
    end.

(** The [print] statement: one more line on the standard output. *)
Definition print (line : string) : IO unit :=
  fun p => (Returned tt, mkProcess (commands p) (stdout p ++ [line])).

Module CreateOptions.

Record t : Type := mk { name : string }.

Definition run (w : World) (self : t) (flocker : Flocker.t) : IO unit :=
  run_M (Flocker.createVolume w flocker (name self)).

End CreateOptions.

Module ListVolumesOptions.

(** The [for] loop of [run] over the names still to print. *)
Fixpoint run_loop (names : list string) : IO unit :=
  match names with
  | [] => io_ret tt
  | name :: names' => (print name ;; run_loop names')%io
  end.

Definition run (w : World) (flocker : Flocker.t) : IO unit :=
  (names <- of_outcome (Flocker.listVolumes w flocker) ;;
   run_loop names)%io.

End ListVolumesOptions.

Module BranchOptions.

(** [tag] and [branch] are the two option parameters, [None] when not
    given; [newBranchName] is the positional argument. *)
Record t : Type := mk
  { tag : option string; branch : option string; newBranchName : string }.

Definition postOptions (self : t) : IO unit :=
  match tag self, branch self with
  | Some _, Some _ =>
      io_raise (UsageError "Only one of 'tag' and 'branch' should be chosen")
  | _, _ => io_ret tt
  end.

Definition run (w : World) (self : t) (flocker : Flocker.t) : IO unit :=
  match branch self with
  | Some b =>
      (fromBranch <-
         of_outcome (FlockerBranch.fromBranchName b (Flocker.flockerName flocker)) ;;
       destinationBranch <-
         of_outcome (FlockerBranch.fromBranchName (newBranchName self)
                                                  (Flocker.flockerName flocker)) ;;
       run_M (Flocker.branchOffBranch w flocker destinationBranch fromBranch))%io
  | None => io_raise (NotImplementedError "tags don't work yet")
  end.

End BranchOptions.

Module ListBranchesOptions.

Record t : Type := mk { name : string }.

Definition run (self : t) (flocker : Flocker.t) : IO unit := io_ret tt.

End ListBranchesOptions.

Module TagOptions.

Record t : Type := mk { name : string }.

Definition run (self : t) (flocker : Flocker.t) : IO unit := io_ret tt.

End TagOptions.

Module ListTagsOptions.

Record t : Type := mk { name : string }.

Definition run (self : t) (flocker : Flocker.t) : IO unit := io_ret tt.

End ListTagsOptions.

Module FlockerOptions.

(** The parsed sub-command, one constructor per row of [subCommands], with
    the options object the parser made for it. *)
Inductive SubOptions : Type :=
| volume (o : CreateOptions.t)
| list_volumes
| branch (o : BranchOptions.t)
| list_branches (o : ListBranchesOptions.t)
| tag (o : TagOptions.t)
| list_tags (o : ListTagsOptions.t).

(** [self.subOptions.run(flocker)], by the class of the options object. *)
Definition subOptions_run (w : World) (sub : SubOptions) (flocker : Flocker.t)
  : IO unit :=
  match sub with
  | volume o => CreateOptions.run w o flocker
  | list_volumes => ListVolumesOptions.run w flocker
  | branch o => BranchOptions.run w o flocker
  | list_branches o => ListBranchesOptions.run o flocker
  | tag o => TagOptions.run o flocker
  | list_tags o => ListTagsOptions.run o flocker
  end.

(** [pool] is the option parameter, [None] when not given; [subCommand] is
    [None] when no sub-command was given and holds the sub-command's
    options otherwise. *)
Record t : Type := mk
  { pool : option string; subCommand : option SubOptions }.

(** [opt_help] is inherited from the option parser and taken as given. *)
Definition postOptions (w : World) (opt_help : IO unit) (self : t) : IO unit :=
  match subCommand self with
  | None => opt_help
  | Some sub =>
      match pool self with
      | None => io_raise (UsageError "pool is required")
      | Some p => subOptions_run w sub (Flocker.init p)
      end
  end.

End FlockerOptions.

(** A [zfs] command all of whose arguments after the verb name something
    inside the pool: they start with the pool name and a slash. *)
Definition within_pool (poolName : string) (cmd : argv) : bool :=
  match cmd with
  | prog :: verb :: args =>
      String.eqb prog "zfs" && forallb (String.prefix (poolName ++ "/")) args
  | _ => false
  end.

(** The process before anything was run or printed. *)
Definition fresh : Process := mkProcess [] [].

(** [zfs snapshot] exits with status 1, every other command succeeds. *)
Definition snapshot_fails_world : World :=
  mkWorld (fun _ cmd => match cmd with
                        | _ :: sub :: _ =>
                            if String.eqb sub "snapshot" then 1%Z else 0%Z
                        | _ => 0%Z
                        end)
          (fun _ => []).

(** * Properties *)

(** ** Sanity checks on concrete inputs *)

Example datasetName_trunk :
  FlockerBranch.datasetName (FlockerBranch.mk "pool1" "db" "trunk") "pool1"
  = "pool1/pool1.db.trunk".
Proof. reflexivity. Qed.

Example fromDatasetName_entry :
  FlockerBranch.fromDatasetName "pool1.db.trunk"
  = Ok (FlockerBranch.mk "pool1" "db" "trunk").
Proof. reflexivity. Qed.

Example split_empty : PyStr.split "." "" = [""].
Proof. reflexivity. Qed.

Example split_trailing : PyStr.split "." "a.b." = ["a"; "b"; ""].
Proof. reflexivity. Qed.

Example listVolumes_scenario_b :
  Flocker.listVolumes (world_listing ["pool1.db.trunk"; "junkfile"])
                      (Flocker.init "pool1")
  = Ok ["db/trunk"].
Proof. reflexivity. Qed.

Example branchOffBranch_scenario_d :
  Flocker.branchOffBranch quiet_world (Flocker.init "pool1")
    (FlockerBranch.mk "pool1" "db" "feature")
    (FlockerBranch.mk "pool1" "db" "trunk") []
  = (Ok tt,
     [["zfs"; "snapshot"; "pool1/pool1.db.trunk@feature"];
      ["zfs"; "clone"; "pool1/pool1.db.trunk@feature"; "pool1/pool1.db.feature"]]).
Proof. reflexivity. Qed.

(** ** Splitting and joining *)

Section SplitFacts.

Variable sep : ascii.

Lemma split_not_nil (s : string) : PyStr.split sep s <> [].
Proof.
  destruct s as [|c s]; simpl; [discriminate|].
  destruct (Ascii.eqb c sep); [discriminate|].
  destruct (PyStr.split sep s); discriminate.
Qed.

(** A string without the separator is its own single token. *)
Lemma split_no_sep (s : string) :
  PyStr.contains sep s = false -> PyStr.split sep s = [s].
Proof.
  induction s as [|c s IH]; simpl; [reflexivity|].
  destruct (Ascii.eqb c sep); [discriminate|].
  intros H. rewrite (IH H). reflexivity.
Qed.

(** The first token ends at the first separator. *)
Lemma split_app_sep (a rest : string) :
  PyStr.contains sep a = false ->
  PyStr.split sep (a ++ String sep rest) = a :: PyStr.split sep rest.
Proof.
  induction a as [|c a IH]; simpl.
  - intros _. rewrite Ascii.eqb_refl. reflexivity.
  - destruct (Ascii.eqb c sep); [discriminate|].
    intros H. rewrite (IH H). reflexivity.
Qed.

(** One token more than there are separators. *)
Lemma split_length_count (s : string) :
  length (PyStr.split sep s) = S (PyStr.count sep s).
Proof.
  induction s as [|c s IH]; simpl; [reflexivity|].
  destruct (Ascii.eqb c sep); simpl.
  - now rewrite IH.
  - destruct (PyStr.split sep s) as [|tok toks] eqn:E.
    + now destruct (split_not_nil s).
    + simpl in *. exact IH.
Qed.

Lemma contains_count (s : string) :
  PyStr.contains sep s = false <-> PyStr.count sep s = 0.
Proof.
  induction s as [|c s IH]; simpl; [tauto|].
  destruct (Ascii.eqb c sep); simpl; [split; discriminate | exact IH].
Qed.

(** An entry with a separator in it has at least two tokens. *)
Lemma contains_split_length (s : string) :
  PyStr.contains sep s = true -> 2 <= length (PyStr.split sep s).
Proof.
  intros H. rewrite split_length_count.
  destruct (PyStr.count sep s) eqn:E; [|lia].
  apply contains_count in E. congruence.
Qed.

Lemma after_first_none (s : string) :
  PyStr.contains sep s = false -> after_first sep s = None.
Proof.
  induction s as [|c s IH]; simpl; [reflexivity|].
  destruct (Ascii.eqb c sep); [discriminate | exact IH].
Qed.

End SplitFacts.

Lemma spec_relative_suffix_id (s : string) :
  PyStr.contains "/" s = false -> spec_relative_suffix s = s.
Proof.
  intros H. unfold spec_relative_suffix. now rewrite after_first_none.
Qed.

(** The constructor accepts exactly the lists of three arguments. *)
Lemma new_ok_iff (parts : list string) :
  is_ok (FlockerBranch.new parts) = true <-> length parts = 3.
Proof.
  destruct parts as [|a [|b [|c [|d parts]]]]; simpl; split;
    try discriminate; reflexivity.
Qed.

Lemma new_raises (parts : list string) :
  length parts <> 3 -> FlockerBranch.new parts = Raise TypeError.
Proof.
  destruct parts as [|a [|b [|c [|d parts]]]]; simpl; intros H;
    try reflexivity. now destruct H.
Qed.

Lemma append_assoc (a b c : string) :
  ((a ++ b) ++ c = a ++ (b ++ c))%string.
Proof.
  induction a as [|x a IH]; simpl; [reflexivity | now rewrite IH].
Qed.

Lemma contains_app (sep : ascii) (a b : string) :
  PyStr.contains sep (a ++ b) = PyStr.contains sep a || PyStr.contains sep b.
Proof.
  induction a as [|c a IH]; simpl; [reflexivity|].
  now destruct (Ascii.eqb c sep).
Qed.

(** Three separator-free tokens joined by the separator split back into
    themselves. *)
Lemma split_join3 (sep : ascii) (a b c : string) :
  PyStr.contains sep a = false ->
  PyStr.contains sep b = false ->
  PyStr.contains sep c = false ->
  PyStr.split sep (PyStr.join (String sep "") [a; b; c]) = [a; b; c].
Proof.
  intros Ha Hb Hc. unfold PyStr.join. simpl.
  rewrite (split_app_sep sep a _ Ha), (split_app_sep sep b _ Hb).
  now rewrite (split_no_sep sep c Hc).
Qed.

(** ** Decoding dataset names *)

(** On the name of a mount-root entry, the dot-joined triple without the
    pool in front, decoding is the inverse of joining. *)
Lemma fromDatasetName_entry_round_trip (id : FlockerBranch.t) :
  PyStr.contains "." (FlockerBranch.flockerName id) = false ->
  PyStr.contains "." (FlockerBranch.volume id) = false ->
  PyStr.contains "." (FlockerBranch.branch id) = false ->
  FlockerBranch.fromDatasetName (PyStr.join "." (FlockerBranch.fields id))
  = Ok id.
Proof.
  destruct id as [f v b].
  cbn [FlockerBranch.flockerName FlockerBranch.volume FlockerBranch.branch
       FlockerBranch.fields].
  intros Hf Hv Hb. unfold FlockerBranch.fromDatasetName, FlockerBranch.fields.
  cbn [FlockerBranch.flockerName FlockerBranch.volume FlockerBranch.branch].
  now rewrite (split_join3 "." f v b Hf Hv Hb).
Qed.

(** On the full dataset name the pool and its slash stay in the first
    field: the decoder splits the whole string and strips nothing. *)
Lemma fromDatasetName_datasetName (id : FlockerBranch.t) (poolName : string) :
  PyStr.contains "." poolName = false ->
  PyStr.contains "." (FlockerBranch.flockerName id) = false ->
  PyStr.contains "." (FlockerBranch.volume id) = false ->
  PyStr.contains "." (FlockerBranch.branch id) = false ->
  FlockerBranch.fromDatasetName (FlockerBranch.datasetName id poolName)
  = Ok (FlockerBranch.mk (poolName ++ "/" ++ FlockerBranch.flockerName id)
                         (FlockerBranch.volume id) (FlockerBranch.branch id)).
Proof.
  destruct id as [f v b].
  cbn [FlockerBranch.flockerName FlockerBranch.volume FlockerBranch.branch].
  intros Hp Hf Hv Hb.
  unfold FlockerBranch.fromDatasetName, FlockerBranch.datasetName, PyStr.join.
  cbn [FlockerBranch.flockerName FlockerBranch.volume FlockerBranch.branch
       String.concat].
  replace (poolName ++ "/" ++ f ++ "." ++ v ++ "." ++ b)%string
    with ((poolName ++ "/" ++ f) ++ String "." (v ++ String "." b))%string.
  - rewrite split_app_sep.
    + rewrite (split_app_sep "." v _ Hv), (split_no_sep "." b Hb). reflexivity.
    + rewrite !contains_app, Hp, Hf. reflexivity.
  - rewrite !append_assoc. reflexivity.
Qed.

(** C1: decoding the flat dataset name that [datasetName] produces does not
    give the identifier back.  For the identifier (pool1, db, trunk) in pool
    pool1 the encoded name is pool1/pool1.db.trunk, and [fromDatasetName]
    returns the owner pool1/pool1, not pool1. *)
Theorem fromDatasetName_datasetName_keeps_pool :
  FlockerBranch.datasetName (FlockerBranch.mk "pool1" "db" "trunk") "pool1"
    = "pool1/pool1.db.trunk"
  /\ FlockerBranch.fromDatasetName
       (FlockerBranch.datasetName (FlockerBranch.mk "pool1" "db" "trunk") "pool1")
     = Ok (FlockerBranch.mk "pool1/pool1" "db" "trunk")
  /\ FlockerBranch.fromDatasetName
       (FlockerBranch.datasetName (FlockerBranch.mk "pool1" "db" "trunk") "pool1")
     <> Ok (FlockerBranch.mk "pool1" "db" "trunk").
Proof.
  split; [reflexivity|]. split; [reflexivity|]. discriminate.
Qed.

(** C2, as stated, fails: the entry [a..c] has an empty middle token, so the
    decoder of the specification rejects it, yet [fromDatasetName] returns
    the identifier (a, "", c). *)
Lemma fromDatasetName_accepts_empty_token :
  FlockerBranch.fromDatasetName "a..c" = Ok (FlockerBranch.mk "a" "" "c")
  /\ spec_decode_accepts "a..c" = false
  /\ ~ (forall s : string,
          is_ok (FlockerBranch.fromDatasetName s) = true
          <-> spec_decode_accepts s = true).
Proof.
  split; [reflexivity|]. split; [reflexivity|].
  intros H. destruct (H "a..c") as [H1 _].
  specialize (H1 eq_refl). vm_compute in H1. discriminate H1.
Qed.

(** C2, amended: on a name with no pool in front of it (no slash, so that the
    dataset-relative suffix is the name itself), [fromDatasetName] succeeds
    if and only if splitting on the dot gives exactly three tokens, returns
    these three tokens whether or not one of them is empty, and raises
    [TypeError] on every other number of tokens. *)
Theorem fromDatasetName_three_tokens (s : string) :
  PyStr.contains "/" s = false ->
  (is_ok (FlockerBranch.fromDatasetName s) = true
   <-> length (PyStr.split "." (spec_relative_suffix s)) = 3)
  /\ (forall a b c, PyStr.split "." (spec_relative_suffix s) = [a; b; c] ->
        FlockerBranch.fromDatasetName s = Ok (FlockerBranch.mk a b c))
  /\ (length (PyStr.split "." (spec_relative_suffix s)) <> 3 ->
        FlockerBranch.fromDatasetName s = Raise TypeError).
Proof.
  intros Hs. rewrite (spec_relative_suffix_id s Hs).
  unfold FlockerBranch.fromDatasetName. repeat split.
  - apply new_ok_iff.
  - apply new_ok_iff.
  - intros a b c E. rewrite E. reflexivity.
  - apply new_raises.
Qed.

Lemma fromDatasetName_three_tokens_witness :
  PyStr.contains "/" "a..c" = false
  /\ (is_ok (FlockerBranch.fromDatasetName "a..c") = true
      <-> length (PyStr.split "." (spec_relative_suffix "a..c")) = 3)
  /\ FlockerBranch.fromDatasetName "a..c" = Ok (FlockerBranch.mk "a" "" "c")
  /\ FlockerBranch.fromDatasetName "a.b" = Raise TypeError
  /\ FlockerBranch.fromDatasetName "a.b.c.d" = Raise TypeError.
Proof.
  split; [reflexivity|].
  split; [exact (proj1 (fromDatasetName_three_tokens "a..c" eq_refl))|].
  split; [exact (proj1 (proj2 (fromDatasetName_three_tokens "a..c" eq_refl))
                   "a" "" "c" eq_refl)|].
  split.
  - apply (proj2 (proj2 (fromDatasetName_three_tokens "a.b" eq_refl))).
    vm_compute. discriminate.
  - apply (proj2 (proj2 (fromDatasetName_three_tokens "a.b.c.d" eq_refl))).
    vm_compute. discriminate.
Defined.

(** ** Branch references *)

(** C7: [fromBranchName] splits the reference on the slash.  Two tokens give
    the identifier with the default owner in front; three tokens give the
    identifier made of the tokens themselves, the default owner being
    ignored; every other number of tokens makes the call fail, with the
    [TypeError] of the named tuple's constructor. *)
Theorem fromBranchName_token_count (branchName thisFlockerName : string) :
  (forall t1 t2, PyStr.split "/" branchName = [t1; t2] ->
     FlockerBranch.fromBranchName branchName thisFlockerName
     = Ok (FlockerBranch.mk thisFlockerName t1 t2))
  /\ (forall t1 t2 t3, PyStr.split "/" branchName = [t1; t2; t3] ->
        FlockerBranch.fromBranchName branchName thisFlockerName
        = Ok (FlockerBranch.mk t1 t2 t3))
  /\ (length (PyStr.split "/" branchName) <> 2 ->
      length (PyStr.split "/" branchName) <> 3 ->
      FlockerBranch.fromBranchName branchName thisFlockerName
      = Raise TypeError).
Proof.
  unfold FlockerBranch.fromBranchName. repeat split.
  - intros t1 t2 E. rewrite E. reflexivity.
  - intros t1 t2 t3 E. rewrite E. reflexivity.
  - intros H2 H3.
    destruct (Nat.eqb_spec (length (PyStr.split "/" branchName)) 2) as [E|_];
      [contradiction|].
    now apply new_raises.
Qed.

Lemma fromBranchName_token_count_witness :
  FlockerBranch.fromBranchName "db/trunk" "pool1"
    = Ok (FlockerBranch.mk "pool1" "db" "trunk")
  /\ FlockerBranch.fromBranchName "pool2/db/trunk" "pool1"
     = Ok (FlockerBranch.mk "pool2" "db" "trunk")
  /\ FlockerBranch.fromBranchName "db" "pool1" = Raise TypeError
  /\ FlockerBranch.fromBranchName "a/b/c/d" "pool1" = Raise TypeError.
Proof.
  split.
  - exact (proj1 (fromBranchName_token_count "db/trunk" "pool1")
             "db" "trunk" eq_refl).
  - split.
    + exact (proj1 (proj2 (fromBranchName_token_count "pool2/db/trunk" "pool1"))
               "pool2" "db" "trunk" eq_refl).
    + split.
      * apply (proj2 (proj2 (fromBranchName_token_count "db" "pool1")));
          vm_compute; discriminate.
      * apply (proj2 (proj2 (fromBranchName_token_count "a/b/c/d" "pool1")));
          vm_compute; discriminate.
Defined.

(** C8: for an identifier whose tokens hold no slash, parsing what
    [listVolumes] displays gives the identifier back: the short form parsed
    with the local owner as default when the owner is the local owner, the
    long form parsed with any default owner when it is not. *)
Theorem reference_round_trip (id : FlockerBranch.t) (localOwner : string) :
  PyStr.contains "/" (FlockerBranch.flockerName id) = false ->
  PyStr.contains "/" (FlockerBranch.volume id) = false ->
  PyStr.contains "/" (FlockerBranch.branch id) = false ->
  (FlockerBranch.flockerName id = localOwner ->
   FlockerBranch.fromBranchName (Flocker.formatForDisplay id localOwner)
                                localOwner = Ok id)
  /\ (FlockerBranch.flockerName id <> localOwner ->
      forall defaultOwner,
        FlockerBranch.fromBranchName (Flocker.formatForDisplay id localOwner)
                                     defaultOwner = Ok id).
Proof.
  destruct id as [f v b].
  cbn [FlockerBranch.flockerName FlockerBranch.volume FlockerBranch.branch].
  intros Hf Hv Hb.
  unfold Flocker.formatForDisplay, FlockerBranch.fromBranchName,
    FlockerBranch.fields.
  cbn [FlockerBranch.flockerName FlockerBranch.volume FlockerBranch.branch].
  split.
  - intros ->. rewrite String.eqb_refl.
    change (v ++ "/" ++ b)%string with (v ++ String "/" b)%string.
    rewrite (split_app_sep "/" v b Hv), (split_no_sep "/" b Hb).
    reflexivity.
  - intros Hne defaultOwner.
    destruct (String.eqb_spec f localOwner) as [E|_]; [contradiction|].
    rewrite (split_join3 "/" f v b Hf Hv Hb). reflexivity.
Qed.

Lemma reference_round_trip_witness :
  FlockerBranch.fromBranchName
    (Flocker.formatForDisplay (FlockerBranch.mk "pool1" "db" "trunk") "pool1")
    "pool1" = Ok (FlockerBranch.mk "pool1" "db" "trunk")
  /\ FlockerBranch.fromBranchName
       (Flocker.formatForDisplay (FlockerBranch.mk "pool2" "shared" "trunk")
                                 "pool1")
       "elsewhere" = Ok (FlockerBranch.mk "pool2" "shared" "trunk").
Proof.
  split.
  - exact (proj1 (reference_round_trip
                    (FlockerBranch.mk "pool1" "db" "trunk") "pool1"
                    eq_refl eq_refl eq_refl) eq_refl).
  - apply (proj2 (reference_round_trip
                    (FlockerBranch.mk "pool2" "shared" "trunk") "pool1"
                    eq_refl eq_refl eq_refl)).
    simpl. discriminate.
Defined.

(** ** Engine calls *)

Section EngineCalls.

Variable w : World.

Lemma zfs_run (arguments : argv) (tr : trace) :
  zfs w arguments tr
  = (if Z.eqb (exit_status w tr ("zfs" :: arguments)) 0 then Ok tt
     else Raise (CalledProcessError (exit_status w tr ("zfs" :: arguments))
                                    ("zfs" :: arguments)),
     tr ++ ["zfs" :: arguments]).
Proof. reflexivity. Qed.

Lemma zfs_trace (arguments : argv) (tr : trace) :
  snd (zfs w arguments tr) = tr ++ ["zfs" :: arguments].
Proof. reflexivity. Qed.

Lemma zfs_succeeds (arguments : argv) (tr : trace) :
  exit_status w tr ("zfs" :: arguments) = 0%Z ->
  zfs w arguments tr = (Ok tt, tr ++ ["zfs" :: arguments]).
Proof. intros H. rewrite zfs_run, H. reflexivity. Qed.

Lemma zfs_fails (arguments : argv) (tr : trace) :
  exit_status w tr ("zfs" :: arguments) <> 0%Z ->
  zfs w arguments tr
  = (Raise (CalledProcessError (exit_status w tr ("zfs" :: arguments))
                               ("zfs" :: arguments)),
     tr ++ ["zfs" :: arguments]).
Proof.
  intros H. rewrite zfs_run.
  destruct (Z.eqb_spec (exit_status w tr ("zfs" :: arguments)) 0);
    [contradiction | reflexivity].
Qed.

Lemma bind_ok {A B} (m : M A) (k : A -> M B) (tr tr' : trace) (a : A) :
  m tr = (Ok a, tr') -> bind m k tr = k a tr'.
Proof. intros H. unfold bind. now rewrite H. Qed.

Lemma bind_raise {A B} (m : M A) (k : A -> M B) (tr tr' : trace) (e : exn) :
  m tr = (Raise e, tr') -> bind m k tr = (Raise e, tr').
Proof. intros H. unfold bind. now rewrite H. Qed.

Lemma branchOffBranch_same_volume (self : Flocker.t)
    (newBranch fromBranch : FlockerBranch.t) :
  FlockerBranch.volume newBranch = FlockerBranch.volume fromBranch ->
  Flocker.branchOffBranch w self newBranch fromBranch
  = bind (zfs w ["snapshot";
                 FlockerBranch.datasetName fromBranch (Flocker.poolName self)
                 ++ "@" ++ FlockerBranch.branch newBranch])%string
         (fun _ =>
            zfs w ["clone";
                   FlockerBranch.datasetName fromBranch (Flocker.poolName self)
                   ++ "@" ++ FlockerBranch.branch newBranch;
                   FlockerBranch.datasetName newBranch (Flocker.poolName self)]%string).
Proof.
  intros E. unfold Flocker.branchOffBranch.
  rewrite E, String.eqb_refl. reflexivity.
Qed.

End EngineCalls.

(** C3: when the two branches are of the same volume, [branchOffBranch]
    runs exactly two commands, in this order: the snapshot of the source
    branch's dataset under the new branch's name, then the clone of that
    snapshot into the new branch's dataset.  The second command is run once
    the first has returned with exit status 0, and the operation returns
    normally when the second does too. *)
Theorem branchOffBranch_protocol (w : World) (self : Flocker.t)
    (newBranch fromBranch : FlockerBranch.t) (tr : trace) :
  let snapshotName :=
    (FlockerBranch.datasetName fromBranch (Flocker.poolName self)
     ++ "@" ++ FlockerBranch.branch newBranch)%string in
  let snapshot := ["zfs"; "snapshot"; snapshotName] in
  let clone :=
    ["zfs"; "clone"; snapshotName;
     FlockerBranch.datasetName newBranch (Flocker.poolName self)] in
  FlockerBranch.volume newBranch = FlockerBranch.volume fromBranch ->
  exit_status w tr snapshot = 0%Z ->
  snd (Flocker.branchOffBranch w self newBranch fromBranch tr)
  = tr ++ [snapshot; clone]
  /\ (exit_status w (tr ++ [snapshot]) clone = 0%Z ->
      Flocker.branchOffBranch w self newBranch fromBranch tr
      = (Ok tt, tr ++ [snapshot; clone])).
Proof.
  intros snapshotName snapshot clone Hvol Hsnap.
  rewrite (branchOffBranch_same_volume w self newBranch fromBranch Hvol).
  fold snapshotName.
  rewrite (bind_ok _ _ tr (tr ++ [snapshot]) tt)
    by (apply zfs_succeeds; exact Hsnap).
  split.
  - rewrite zfs_trace. rewrite <- app_assoc. reflexivity.
  - intros Hclone. rewrite zfs_succeeds by exact Hclone.
    rewrite <- app_assoc. reflexivity.
Qed.

Lemma branchOffBranch_protocol_witness :
  Flocker.branchOffBranch quiet_world (Flocker.init "pool1")
    (FlockerBranch.mk "pool1" "db" "feature")
    (FlockerBranch.mk "pool1" "db" "trunk") []
  = (Ok tt,
     [["zfs"; "snapshot"; "pool1/pool1.db.trunk@feature"];
      ["zfs"; "clone"; "pool1/pool1.db.trunk@feature";
       "pool1/pool1.db.feature"]]).
Proof.
  exact (proj2 (branchOffBranch_protocol quiet_world (Flocker.init "pool1")
                  (FlockerBranch.mk "pool1" "db" "feature")
                  (FlockerBranch.mk "pool1" "db" "trunk") []
                  eq_refl eq_refl) eq_refl).
Defined.

(** C4: when the two branches are of different volumes, whatever their
    owners and branch names, [branchOffBranch] raises its [ValueError] and
    runs no command: the trace of commands is left as it was. *)
Theorem branchOffBranch_cross_volume (w : World) (self : Flocker.t)
    (newBranch fromBranch : FlockerBranch.t) (tr : trace) :
  FlockerBranch.volume newBranch <> FlockerBranch.volume fromBranch ->
  Flocker.branchOffBranch w self newBranch fromBranch tr
  = (Raise (ValueError "Can't create branches across volumes"), tr).
Proof.
  intros Hvol. unfold Flocker.branchOffBranch.
  destruct (String.eqb_spec (FlockerBranch.volume newBranch)
                            (FlockerBranch.volume fromBranch)) as [E|_];
    [contradiction | reflexivity].
Qed.

Lemma branchOffBranch_cross_volume_witness :
  Flocker.branchOffBranch quiet_world (Flocker.init "pool1")
    (FlockerBranch.mk "pool1" "web" "feature")
    (FlockerBranch.mk "pool1" "db" "trunk") []
  = (Raise (ValueError "Can't create branches across volumes"), []).
Proof.
  apply (branchOffBranch_cross_volume quiet_world (Flocker.init "pool1")
           (FlockerBranch.mk "pool1" "web" "feature")
           (FlockerBranch.mk "pool1" "db" "trunk") []).
  simpl. discriminate.
Defined.

(** C6: [createVolume] runs exactly one command, whatever its exit status:
    the creation of the dataset named pool, slash, local owner, dot, volume
    name, dot, trunk.  An instance made for pool1 creates the volume db as
    pool1/pool1.db.trunk. *)
Theorem createVolume_one_create :
  (forall (w : World) (self : Flocker.t) (volumeName : string) (tr : trace),
      snd (Flocker.createVolume w self volumeName tr)
      = tr ++ [["zfs"; "create";
                (Flocker.poolName self ++ "/" ++ Flocker.flockerName self
                 ++ "." ++ volumeName ++ ".trunk")%string]])
  /\ (forall (w : World) (poolName volumeName : string) (tr : trace),
         snd (Flocker.createVolume w (Flocker.init poolName) volumeName tr)
         = tr ++ [["zfs"; "create";
                   (poolName ++ "/" ++ poolName ++ "." ++ volumeName
                    ++ ".trunk")%string]])
  /\ (forall w : World,
         snd (Flocker.createVolume w (Flocker.init "pool1") "db" [])
         = [["zfs"; "create"; "pool1/pool1.db.trunk"]]).
Proof.
  repeat split; intros; reflexivity.
Qed.

(** C9: when the two branches are of the same volume, the snapshot command
    succeeds and the clone command fails, [branchOffBranch] runs nothing
    after the clone: the commands run are the snapshot and the clone and no
    other, and the caller gets the [CalledProcessError] of the clone. *)
Theorem branchOffBranch_no_rollback (w : World) (self : Flocker.t)
    (newBranch fromBranch : FlockerBranch.t) (tr : trace) :
  let snapshotName :=
    (FlockerBranch.datasetName fromBranch (Flocker.poolName self)
     ++ "@" ++ FlockerBranch.branch newBranch)%string in
  let snapshot := ["zfs"; "snapshot"; snapshotName] in
  let clone :=
    ["zfs"; "clone"; snapshotName;
     FlockerBranch.datasetName newBranch (Flocker.poolName self)] in
  FlockerBranch.volume newBranch = FlockerBranch.volume fromBranch ->
  exit_status w tr snapshot = 0%Z ->
  exit_status w (tr ++ [snapshot]) clone <> 0%Z ->
  Flocker.branchOffBranch w self newBranch fromBranch tr
  = (Raise (CalledProcessError (exit_status w (tr ++ [snapshot]) clone) clone),
     tr ++ [snapshot; clone]).
Proof.
  intros snapshotName snapshot clone Hvol Hsnap Hclone.
  rewrite (branchOffBranch_same_volume w self newBranch fromBranch Hvol).
  fold snapshotName.
  rewrite (bind_ok _ _ tr (tr ++ [snapshot]) tt)
    by (apply zfs_succeeds; exact Hsnap).
  rewrite zfs_fails by exact Hclone.
  rewrite <- app_assoc. reflexivity.
Qed.

Lemma branchOffBranch_no_rollback_witness :
  Flocker.branchOffBranch clone_fails_world (Flocker.init "pool1")
    (FlockerBranch.mk "pool1" "db" "feature")
    (FlockerBranch.mk "pool1" "db" "trunk") []
  = (Raise (CalledProcessError 1
              ["zfs"; "clone"; "pool1/pool1.db.trunk@feature";
               "pool1/pool1.db.feature"]),
     [["zfs"; "snapshot"; "pool1/pool1.db.trunk@feature"];
      ["zfs"; "clone"; "pool1/pool1.db.trunk@feature";
       "pool1/pool1.db.feature"]]).
Proof.
  apply (branchOffBranch_no_rollback clone_fails_world (Flocker.init "pool1")
           (FlockerBranch.mk "pool1" "db" "feature")
           (FlockerBranch.mk "pool1" "db" "trunk") []).
  - reflexivity.
  - reflexivity.
  - vm_compute. discriminate.
Defined.

(** ** Listing volumes *)

Section Listing.

Variable self : Flocker.t.

(** The decoder raises nothing but [TypeError]. *)
Lemma fromDatasetName_cases (s : string) :
  (exists a b c, PyStr.split "." s = [a; b; c]
                 /\ FlockerBranch.fromDatasetName s = Ok (FlockerBranch.mk a b c))
  \/ (length (PyStr.split "." s) <> 3
      /\ FlockerBranch.fromDatasetName s = Raise TypeError).
Proof.
  unfold FlockerBranch.fromDatasetName.
  destruct (PyStr.split "." s) as [|a [|b [|c [|d l]]]]; simpl;
    try (right; split; [discriminate | reflexivity]).
  left. now exists a, b, c.
Qed.

(** One turn of the loop on an entry that can be displayed or skipped. *)
Lemma listVolumes_loop_step (entry : string) (entries result : list string) :
  well_formed_entry entry = true ->
  Flocker.listVolumes_loop self (entry :: entries) result
  = Flocker.listVolumes_loop self entries
      (result ++ spec_display_entry (Flocker.flockerName self) entry).
Proof.
  unfold well_formed_entry, spec_display_entry. intros Hwf. simpl.
  destruct (PyStr.contains "." entry); simpl in *.
  - apply Nat.eqb_eq in Hwf.
    destruct (fromDatasetName_cases entry) as [(a & b & c & Es & Ed)|[Hn _]];
      [|contradiction].
    rewrite Ed, Es. reflexivity.
  - now rewrite app_nil_r.
Qed.

Lemma listVolumes_loop_well_formed (entries result : list string) :
  forallb well_formed_entry entries = true ->
  Flocker.listVolumes_loop self entries result
  = Ok (result ++ spec_listVolumes (Flocker.flockerName self) entries).
Proof.
  revert result. induction entries as [|entry entries IH]; intros result Hall.
  - simpl. now rewrite app_nil_r.
  - simpl in Hall. apply andb_true_iff in Hall as [Hwf Hall].
    rewrite (listVolumes_loop_step entry entries result Hwf).
    rewrite (IH _ Hall). unfold spec_listVolumes. simpl.
    now rewrite app_assoc.
Qed.

(** A dotted entry that does not split into three tokens, anywhere in the
    rest of the listing, ends the loop with the constructor's [TypeError]. *)
Lemma listVolumes_loop_malformed (entries result : list string) :
  forallb well_formed_entry entries = false ->
  Flocker.listVolumes_loop self entries result = Raise TypeError.
Proof.
  revert result. induction entries as [|entry entries IH]; intros result Hbad.
  - discriminate.
  - simpl in Hbad. destruct (well_formed_entry entry) eqn:Hwf; simpl in Hbad.
    + rewrite (listVolumes_loop_step entry entries result Hwf). now apply IH.
    + unfold well_formed_entry in Hwf. apply orb_false_iff in Hwf as [Hdot Hlen].
      simpl. rewrite Hdot. apply Nat.eqb_neq in Hlen.
      destruct (fromDatasetName_cases entry) as [(a & b & c & Es & _)|[_ Ed]].
      * rewrite Es in Hlen. now destruct Hlen.
      * now rewrite Ed.
Qed.

End Listing.

(** C5: on a listing whose entries each have no dot or exactly three
    dot-separated tokens, [listVolumes] returns, in the order of the listing,
    nothing for an entry without a dot, the short form for a three-token
    entry whose owner is this instance's name, and the long form for a
    three-token entry of another owner.  With pool1 as the instance, the
    listing pool1.db.trunk, junkfile gives db/trunk, and the listing
    pool2.shared.trunk gives pool2/shared/trunk.  In any listing, one turn
    of the loop on such an entry adds just that to the result. *)
Theorem listVolumes_rendering :
  (forall (w : World) (self : Flocker.t),
      forallb well_formed_entry (listdir w (Flocker.mountRoot self)) = true ->
      Flocker.listVolumes w self
      = Ok (spec_listVolumes (Flocker.flockerName self)
                             (listdir w (Flocker.mountRoot self))))
  /\ (forall (self : Flocker.t) (entry : string) (entries result : list string),
         well_formed_entry entry = true ->
         Flocker.listVolumes_loop self (entry :: entries) result
         = Flocker.listVolumes_loop self entries
             (result ++ spec_display_entry (Flocker.flockerName self) entry))
  /\ (forall w : World,
         listdir w "/pool1" = ["pool1.db.trunk"; "junkfile"] ->
         Flocker.listVolumes w (Flocker.init "pool1") = Ok ["db/trunk"])
  /\ (forall w : World,
         listdir w "/pool1" = ["pool2.shared.trunk"] ->
         Flocker.listVolumes w (Flocker.init "pool1")
         = Ok ["pool2/shared/trunk"]).
Proof.
  assert (G : forall (w : World) (self : Flocker.t),
             forallb well_formed_entry (listdir w (Flocker.mountRoot self)) = true ->
             Flocker.listVolumes w self
             = Ok (spec_listVolumes (Flocker.flockerName self)
                                    (listdir w (Flocker.mountRoot self)))).
  { intros w self Hall. unfold Flocker.listVolumes.
    now rewrite (listVolumes_loop_well_formed self _ [] Hall). }
  split; [exact G|]. split; [exact listVolumes_loop_step|].
  split; intros w Hw.
  - rewrite G; simpl Flocker.mountRoot; rewrite Hw; reflexivity.
  - rewrite G; simpl Flocker.mountRoot; rewrite Hw; reflexivity.
Qed.

Lemma listVolumes_rendering_witness :
  Flocker.listVolumes
    (world_listing ["pool1.db.trunk"; "junkfile"; "pool2.shared.trunk"])
    (Flocker.init "pool1")
  = Ok ["db/trunk"; "pool2/shared/trunk"]
  /\ Flocker.listVolumes (world_listing ["pool1.db.trunk"; "junkfile"])
                         (Flocker.init "pool1") = Ok ["db/trunk"]
  /\ Flocker.listVolumes (world_listing ["pool2.shared.trunk"])
                         (Flocker.init "pool1") = Ok ["pool2/shared/trunk"].
Proof.
  split.
  - exact (proj1 listVolumes_rendering
             (world_listing ["pool1.db.trunk"; "junkfile"; "pool2.shared.trunk"])
             (Flocker.init "pool1") eq_refl).
  - split.
    + exact (proj1 (proj2 (proj2 listVolumes_rendering))
               (world_listing ["pool1.db.trunk"; "junkfile"]) eq_refl).
    + exact (proj2 (proj2 (proj2 listVolumes_rendering))
               (world_listing ["pool2.shared.trunk"]) eq_refl).
Defined.

(** C10: when some entry of the listing has a dot in it and does not split
    into exactly three dot-separated tokens, [listVolumes] raises, the
    [TypeError] of the named tuple's constructor, and so returns no list:
    neither the entries before the malformed one nor those after it are
    returned. *)
Theorem listVolumes_aborts_on_malformed (w : World) (self : Flocker.t)
    (entry : string) :
  In entry (listdir w (Flocker.mountRoot self)) ->
  PyStr.contains "." entry = true ->
  length (PyStr.split "." entry) <> 3 ->
  Flocker.listVolumes w self = Raise TypeError.
Proof.
  intros Hin Hdot Hlen. unfold Flocker.listVolumes.
  apply listVolumes_loop_malformed.
  destruct (forallb well_formed_entry (listdir w (Flocker.mountRoot self)))
    eqn:Hall; [|reflexivity].
  rewrite forallb_forall in Hall. specialize (Hall entry Hin).
  unfold well_formed_entry in Hall. rewrite Hdot in Hall. simpl in Hall.
  apply Nat.eqb_eq in Hall. contradiction.
Qed.

Lemma listVolumes_aborts_on_malformed_witness :
  Flocker.listVolumes (world_listing ["pool1.db.trunk"; "a.b"; "pool1.web.trunk"])
                      (Flocker.init "pool1") = Raise TypeError
  /\ Flocker.listVolumes (world_listing ["a.b.c.d"]) (Flocker.init "pool1")
     = Raise TypeError.
Proof.
  split.
  - apply (listVolumes_aborts_on_malformed
             (world_listing ["pool1.db.trunk"; "a.b"; "pool1.web.trunk"])
             (Flocker.init "pool1") "a.b").
    + simpl. right. left. reflexivity.
    + reflexivity.
    + vm_compute. discriminate.
  - apply (listVolumes_aborts_on_malformed (world_listing ["a.b.c.d"])
             (Flocker.init "pool1") "a.b.c.d").
    + simpl. left. reflexivity.
    + reflexivity.
    + vm_compute. discriminate.
Defined.

(** * Further properties of the naming scheme *)

(** ** More on splitting and joining *)

Section SplitJoin.

Variable sep : ascii.

(** Joining the tokens of a string by the separator gives the string. *)
Lemma join_split (s : string) :
  PyStr.join (String sep "") (PyStr.split sep s) = s.
Proof.
  unfold PyStr.join. induction s as [|c s IH]; simpl; [reflexivity|].
  destruct (Ascii.eqb_spec c sep) as [->|Hc].
  - destruct (PyStr.split sep s) as [|tok toks] eqn:E.
    + now destruct (split_not_nil sep s).
    + simpl in *. now rewrite IH.
  - destruct (PyStr.split sep s) as [|tok toks] eqn:E.
    + now destruct (split_not_nil sep s).
    + destruct toks as [|tok' toks]; simpl in *; now rewrite IH.
Qed.

(** No token holds the separator. *)
Lemma split_tokens_no_sep (s tok : string) :
  In tok (PyStr.split sep s) -> PyStr.contains sep tok = false.
Proof.
  revert tok. induction s as [|c s IH]; simpl; intros tok Hin.
  - destruct Hin as [<-|[]]. reflexivity.
  - destruct (Ascii.eqb c sep) eqn:Ec.
    + destruct Hin as [<-|Hin]; [reflexivity | now apply IH].
    + destruct (PyStr.split sep s) as [|t ts] eqn:E.
      * destruct Hin as [<-|[]]. simpl. now rewrite Ec.
      * destruct Hin as [<-|Hin].
        -- simpl. rewrite Ec. apply IH. now left.
        -- apply IH. now right.
Qed.

(** A byte absent from a string is absent from each of its tokens. *)
Lemma split_tokens_without (c : ascii) (s tok : string) :
  PyStr.contains c s = false ->
  In tok (PyStr.split sep s) -> PyStr.contains c tok = false.
Proof.
  revert tok. induction s as [|x s IH]; simpl; intros tok Hs Hin.
  - destruct Hin as [<-|[]]. reflexivity.
  - destruct (Ascii.eqb x c) eqn:Exc; [discriminate|].
    destruct (Ascii.eqb x sep).
    + destruct Hin as [<-|Hin]; [reflexivity | now apply IH].
    + destruct (PyStr.split sep s) as [|t ts] eqn:E.
      * destruct Hin as [<-|[]]. simpl. now rewrite Exc.
      * destruct Hin as [<-|Hin].
        -- simpl. rewrite Exc. apply IH; [exact Hs | now left].
        -- apply IH; [exact Hs | now right].
Qed.

Lemma count_app (a b : string) :
  PyStr.count sep (a ++ b) = PyStr.count sep a + PyStr.count sep b.
Proof.
  induction a as [|c a IH]; simpl; [reflexivity|]. rewrite IH. lia.
Qed.

End SplitJoin.

Lemma append_cancel_l (a x y : string) :
  (a ++ x = a ++ y)%string -> x = y.
Proof.
  induction a as [|c a IH]; simpl; intros H; [exact H|].
  injection H as H. now apply IH.
Qed.

Lemma length_append (a b : string) :
  String.length (a ++ b) = String.length a + String.length b.
Proof.
  induction a as [|c a IH]; simpl; [reflexivity | now rewrite IH].
Qed.

(** ** Dataset names *)

(** X1: what [fromDatasetName] returns is the input cut at its dots: no
    field of the result holds a dot, and joining the three fields by dots
    gives the input back. *)
Theorem fromDatasetName_sound (s : string) (id : FlockerBranch.t) :
  FlockerBranch.fromDatasetName s = Ok id ->
  PyStr.join "." (FlockerBranch.fields id) = s
  /\ PyStr.contains "." (FlockerBranch.flockerName id) = false
  /\ PyStr.contains "." (FlockerBranch.volume id) = false
  /\ PyStr.contains "." (FlockerBranch.branch id) = false.
Proof.
  unfold FlockerBranch.fromDatasetName. intros H.
  pose proof (join_split "." s) as J.
  pose proof (split_tokens_no_sep "." s) as T.
  destruct (PyStr.split "." s) as [|a [|b [|c [|d l]]]]; try discriminate H.
  injection H as <-. unfold FlockerBranch.fields. simpl FlockerBranch.flockerName.
  simpl FlockerBranch.volume. simpl FlockerBranch.branch.
  split; [exact J|].
  repeat split; apply T; simpl; auto.
Qed.

Lemma fromDatasetName_sound_witness :
  PyStr.join "." (FlockerBranch.fields (FlockerBranch.mk "pool1" "" "trunk"))
  = "pool1..trunk".
Proof.
  exact (proj1 (fromDatasetName_sound "pool1..trunk"
                  (FlockerBranch.mk "pool1" "" "trunk") eq_refl)).
Defined.

(** X2: the dataset name tells the pool and the branch apart: two pools
    without a slash and two branches whose fields hold no dot have the same
    dataset name only when they are the same pool and the same branch. *)
Theorem datasetName_injective (id id' : FlockerBranch.t)
    (poolName poolName' : string) :
  PyStr.contains "/" poolName = false ->
  PyStr.contains "/" poolName' = false ->
  Forall (fun tok => PyStr.contains "." tok = false) (FlockerBranch.fields id) ->
  Forall (fun tok => PyStr.contains "." tok = false) (FlockerBranch.fields id') ->
  FlockerBranch.datasetName id poolName
  = FlockerBranch.datasetName id' poolName' ->
  poolName = poolName' /\ id = id'.
Proof.
  destruct id as [f v b], id' as [f' v' b'].
  unfold FlockerBranch.fields, FlockerBranch.datasetName.
  cbn [FlockerBranch.flockerName FlockerBranch.volume FlockerBranch.branch].
  intros Hp Hp' Hid Hid' E.
  inversion_clear Hid as [|? ? Hf Hid1]. inversion_clear Hid1 as [|? ? Hv Hid2].
  inversion_clear Hid2 as [|? ? Hb _].
  inversion_clear Hid' as [|? ? Hf' Hid1]. inversion_clear Hid1 as [|? ? Hv' Hid2].
  inversion_clear Hid2 as [|? ? Hb' _].
  assert (Es := f_equal (PyStr.split "/") E).
  change (poolName ++ "/" ++ PyStr.join "." [f; v; b])%string
    with (poolName ++ String "/" (PyStr.join "." [f; v; b]))%string in Es.
  change (poolName' ++ "/" ++ PyStr.join "." [f'; v'; b'])%string
    with (poolName' ++ String "/" (PyStr.join "." [f'; v'; b']))%string in Es.
  rewrite (split_app_sep "/" poolName _ Hp),
          (split_app_sep "/" poolName' _ Hp') in Es.
  injection Es as Epool _. subst poolName'. split; [reflexivity|].
  apply append_cancel_l in E. apply (append_cancel_l "/") in E.
  assert (Ed := f_equal (PyStr.split ".") E).
  rewrite (split_join3 "." f v b Hf Hv Hb),
          (split_join3 "." f' v' b' Hf' Hv' Hb') in Ed.
  now injection Ed as -> -> ->.
Qed.

Lemma datasetName_injective_witness :
  "pool1" = "pool1"
  /\ FlockerBranch.mk "pool1" "db" "trunk" = FlockerBranch.mk "pool1" "db" "trunk".
Proof.
  apply (datasetName_injective (FlockerBranch.mk "pool1" "db" "trunk")
           (FlockerBranch.mk "pool1" "db" "trunk") "pool1" "pool1");
    try reflexivity; repeat constructor.
Defined.

(** X3: nothing stops a dot inside a field, and then two different branches
    share a dataset name: owner [a.b] with volume [c] and owner [a] with
    volume [b.c] are named alike in every pool. *)
Theorem datasetName_collision (a b c d poolName : string) :
  FlockerBranch.datasetName (FlockerBranch.mk (a ++ "." ++ b) c d) poolName
  = FlockerBranch.datasetName (FlockerBranch.mk a (b ++ "." ++ c) d) poolName
  /\ FlockerBranch.mk (a ++ "." ++ b) c d
     <> FlockerBranch.mk a (b ++ "." ++ c) d.
Proof.
  split.
  - unfold FlockerBranch.datasetName, PyStr.join.
    cbn [FlockerBranch.flockerName FlockerBranch.volume FlockerBranch.branch
         String.concat].
    now rewrite !append_assoc.
  - intros E. injection E as E _.
    apply (f_equal String.length) in E. rewrite length_append in E.
    simpl in E. lia.
Qed.

(** ** Branch names *)

(** X4: what [fromBranchName] returns is the input cut at its slashes.  The
    volume and the branch of the result hold no slash, and the input is
    either [volume/branch], the owner being the default one, or
    [owner/volume/branch] with an owner that holds no slash. *)
Theorem fromBranchName_sound (branchName thisFlockerName : string)
    (id : FlockerBranch.t) :
  FlockerBranch.fromBranchName branchName thisFlockerName = Ok id ->
  PyStr.contains "/" (FlockerBranch.volume id) = false
  /\ PyStr.contains "/" (FlockerBranch.branch id) = false
  /\ ((FlockerBranch.flockerName id = thisFlockerName
       /\ branchName
          = (FlockerBranch.volume id ++ "/" ++ FlockerBranch.branch id)%string)
      \/ (PyStr.contains "/" (FlockerBranch.flockerName id) = false
          /\ branchName = PyStr.join "/" (FlockerBranch.fields id))).
Proof.
  unfold FlockerBranch.fromBranchName. intros H.
  pose proof (join_split "/" branchName) as J.
  pose proof (split_tokens_no_sep "/" branchName) as T.
  destruct (PyStr.split "/" branchName) as [|a [|b [|c [|d l]]]];
    try discriminate H; simpl in H; injection H as <-;
    unfold FlockerBranch.fields;
    cbn [FlockerBranch.flockerName FlockerBranch.volume FlockerBranch.branch].
  - split; [apply T; simpl; auto|]. split; [apply T; simpl; auto|].
    left. split; [reflexivity | now rewrite <- J].
  - split; [apply T; simpl; auto|]. split; [apply T; simpl; auto|].
    right. split; [apply T; simpl; auto | now rewrite <- J].
Qed.

Lemma fromBranchName_sound_witness :
  "db/trunk"
  = (FlockerBranch.volume (FlockerBranch.mk "pool1" "db" "trunk") ++ "/" ++
     FlockerBranch.branch (FlockerBranch.mk "pool1" "db" "trunk"))%string
  \/ "db/trunk"
     = PyStr.join "/" (FlockerBranch.fields (FlockerBranch.mk "pool1" "db" "trunk")).
Proof.
  destruct (proj2 (proj2 (fromBranchName_sound "db/trunk" "pool1"
                            (FlockerBranch.mk "pool1" "db" "trunk") eq_refl)))
    as [[_ E]|[_ E]]; [left | right]; exact E.
Defined.

(** The displayed name of a branch is read back as the branch, with the
    local name as default owner. *)
Lemma fromBranchName_display (id : FlockerBranch.t) (localOwner : string) :
  PyStr.contains "/" (FlockerBranch.flockerName id) = false ->
  PyStr.contains "/" (FlockerBranch.volume id) = false ->
  PyStr.contains "/" (FlockerBranch.branch id) = false ->
  FlockerBranch.fromBranchName (Flocker.formatForDisplay id localOwner)
                               localOwner = Ok id.
Proof.
  destruct id as [f v b].
  cbn [FlockerBranch.flockerName FlockerBranch.volume FlockerBranch.branch].
  intros Hf Hv Hb.
  unfold Flocker.formatForDisplay, FlockerBranch.fromBranchName,
    FlockerBranch.fields.
  cbn [FlockerBranch.flockerName FlockerBranch.volume FlockerBranch.branch].
  destruct (String.eqb_spec f localOwner) as [->|_].
  - change (v ++ "/" ++ b)%string with (v ++ String "/" b)%string.
    rewrite (split_app_sep "/" v b Hv), (split_no_sep "/" b Hb). reflexivity.
  - rewrite (split_join3 "/" f v b Hf Hv Hb). reflexivity.
Qed.

(** ** More on listing volumes *)

Lemma forallb_false_in {A} (f : A -> bool) (l : list A) (x : A) :
  In x l -> f x = false -> forallb f l = false.
Proof.
  intros Hin Hx. destruct (forallb f l) eqn:E; [|reflexivity].
  rewrite forallb_forall in E. rewrite (E x Hin) in Hx. discriminate.
Qed.

Lemma listVolumes_ok_well_formed (w : World) (self : Flocker.t)
    (names : list string) :
  Flocker.listVolumes w self = Ok names ->
  forallb well_formed_entry (listdir w (Flocker.mountRoot self)) = true
  /\ names = spec_listVolumes (Flocker.flockerName self)
                              (listdir w (Flocker.mountRoot self)).
Proof.
  unfold Flocker.listVolumes. intros H.
  destruct (forallb well_formed_entry (listdir w (Flocker.mountRoot self)))
    eqn:Hall.
  - rewrite (listVolumes_loop_well_formed self _ [] Hall) in H.
    injection H as <-. now split.
  - rewrite (listVolumes_loop_malformed self _ [] Hall) in H. discriminate.
Qed.

Lemma spec_listVolumes_length (localOwner : string) (listing : list string) :
  forallb well_formed_entry listing = true ->
  length (spec_listVolumes localOwner listing)
  = length (filter (PyStr.contains ".") listing).
Proof.
  unfold spec_listVolumes.
  induction listing as [|e listing IH]; simpl; [reflexivity|].
  intros Hall. apply andb_true_iff in Hall as [Hwf Hall].
  rewrite length_app, (IH Hall).
  unfold well_formed_entry in Hwf. unfold spec_display_entry.
  destruct (PyStr.contains "." e); simpl in *; [|reflexivity].
  apply Nat.eqb_eq in Hwf.
  now destruct (PyStr.split "." e) as [|a [|b [|c [|d l]]]].
Qed.

(** X5: [listVolumes] returns a list exactly when every entry of the mount
    root has no dot or exactly three dot-separated tokens, and the list then
    has one name for each entry with a dot. *)
Theorem listVolumes_ok_iff (w : World) (self : Flocker.t) :
  (is_ok (Flocker.listVolumes w self) = true
   <-> forallb well_formed_entry (listdir w (Flocker.mountRoot self)) = true)
  /\ (forall names, Flocker.listVolumes w self = Ok names ->
        length names
        = length (filter (PyStr.contains ".")
                         (listdir w (Flocker.mountRoot self)))).
Proof.
  split; [split|].
  - destruct (Flocker.listVolumes w self) as [names|e] eqn:E; [|discriminate].
    intros _. now destruct (listVolumes_ok_well_formed w self names E).
  - intros Hall. unfold Flocker.listVolumes.
    now rewrite (listVolumes_loop_well_formed self _ [] Hall).
  - intros names E.
    destruct (listVolumes_ok_well_formed w self names E) as [Hall ->].
    now apply spec_listVolumes_length.
Qed.

Lemma spec_display_parse_back (localOwner : string) (listing : list string) :
  Forall (fun e => PyStr.contains "/" e = false) listing ->
  forallb well_formed_entry listing = true ->
  map (fun n => FlockerBranch.fromBranchName n localOwner)
      (spec_listVolumes localOwner listing)
  = map FlockerBranch.fromDatasetName (filter (PyStr.contains ".") listing).
Proof.
  unfold spec_listVolumes.
  induction listing as [|e listing IH]; simpl; [reflexivity|].
  intros Hslash Hall. inversion_clear Hslash as [|? ? He Hrest].
  apply andb_true_iff in Hall as [Hwf Hall].
  rewrite map_app, (IH Hrest Hall).
  unfold well_formed_entry in Hwf. unfold spec_display_entry.
  destruct (PyStr.contains "." e); simpl in *; [|reflexivity].
  apply Nat.eqb_eq in Hwf.
  pose proof (split_tokens_without "." "/" e) as T.
  assert (D : FlockerBranch.fromDatasetName e
              = FlockerBranch.new (PyStr.split "." e)) by reflexivity.
  rewrite D.
  destruct (PyStr.split "." e) as [|a [|b [|c [|d l]]]]; try discriminate Hwf.
  simpl. f_equal.
  apply (fromBranchName_display (FlockerBranch.mk a b c) localOwner);
    apply T; simpl; auto.
Qed.

(** X6: when no entry of the mount root holds a slash, every name that
    [listVolumes] returns is read back by [fromBranchName], with this
    instance's name as default owner, as the branch its entry decodes to. *)
Theorem listVolumes_names_parse_back (w : World) (self : Flocker.t)
    (names : list string) :
  Forall (fun e => PyStr.contains "/" e = false)
         (listdir w (Flocker.mountRoot self)) ->
  Flocker.listVolumes w self = Ok names ->
  map (fun n => FlockerBranch.fromBranchName n (Flocker.flockerName self)) names
  = map FlockerBranch.fromDatasetName
        (filter (PyStr.contains ".") (listdir w (Flocker.mountRoot self))).
Proof.
  intros Hslash E.
  destruct (listVolumes_ok_well_formed w self names E) as [Hall ->].
  now apply spec_display_parse_back.
Qed.

Lemma listVolumes_names_parse_back_witness :
  map (fun n => FlockerBranch.fromBranchName n "pool1")
      ["db/trunk"; "pool2/shared/trunk"]
  = [Ok (FlockerBranch.mk "pool1" "db" "trunk");
     Ok (FlockerBranch.mk "pool2" "shared" "trunk")].
Proof.
  apply (listVolumes_names_parse_back
           (world_listing ["pool1.db.trunk"; "junkfile"; "pool2.shared.trunk"])
           (Flocker.init "pool1") ["db/trunk"; "pool2/shared/trunk"]).
  - repeat constructor.
  - reflexivity.
Defined.

Lemma listVolumes_ok_iff_witness :
  length ["db/trunk"; "pool2/shared/trunk"]
  = length (filter (PyStr.contains ".")
                   ["pool1.db.trunk"; "junkfile"; "pool2.shared.trunk"]).
Proof.
  exact (proj2 (listVolumes_ok_iff
                  (world_listing ["pool1.db.trunk"; "junkfile"; "pool2.shared.trunk"])
                  (Flocker.init "pool1"))
           ["db/trunk"; "pool2/shared/trunk"] eq_refl).
Defined.

Lemma contains_true_count (sep : ascii) (s : string) :
  PyStr.contains sep s = true -> 1 <= PyStr.count sep s.
Proof.
  intros H. destruct (PyStr.count sep s) eqn:E; [|lia].
  apply contains_count in E. congruence.
Qed.

Lemma count_contains_true (sep : ascii) (s : string) :
  1 <= PyStr.count sep s -> PyStr.contains sep s = true.
Proof.
  intros H. destruct (PyStr.contains sep s) eqn:E; [reflexivity|].
  apply contains_count in E. lia.
Qed.

(** The loop on the entries of the trunks this instance created. *)
Lemma listVolumes_loop_created (poolName : string) (vs result : list string) :
  PyStr.contains "." poolName = false ->
  Forall (fun v => PyStr.contains "." v = false) vs ->
  Flocker.listVolumes_loop (Flocker.init poolName)
    (map (fun v => PyStr.join "." [poolName; v; "trunk"]) vs) result
  = Ok (result ++ map (fun v => v ++ "/trunk")%string vs).
Proof.
  intros Hp Hvs. revert result.
  induction Hvs as [|v vs Hv Hvs IH]; intros result.
  - simpl. now rewrite app_nil_r.
  - cbn [map Flocker.listVolumes_loop].
    assert (Hdot : PyStr.contains "." (PyStr.join "." [poolName; v; "trunk"])
                   = true).
    { apply count_contains_true. unfold PyStr.join. simpl String.concat.
      rewrite count_app. simpl. lia. }
    rewrite Hdot. cbn [negb].
    pose proof (fromDatasetName_entry_round_trip
                  (FlockerBranch.mk poolName v "trunk") Hp Hv eq_refl) as D.
    unfold FlockerBranch.fields in D.
    cbn [FlockerBranch.flockerName FlockerBranch.volume FlockerBranch.branch]
      in D.
    rewrite D. unfold Flocker.formatForDisplay.
    cbn [FlockerBranch.flockerName FlockerBranch.volume FlockerBranch.branch
         Flocker.flockerName Flocker.init].
    rewrite String.eqb_refl, IH, <- app_assoc. reflexivity.
Qed.

(** X7: the trunks this instance created are listed by volume.  When neither
    the pool name nor the volume names hold a dot, [createVolume] creates
    for the volume [v] the dataset [pool/pool.v.trunk], and on a mount root
    that lists the entries [pool.v.trunk] of such volumes [listVolumes]
    returns the names [v/trunk], in the same order. *)
Theorem listVolumes_of_created (w : World) (poolName : string)
    (vs : list string) :
  PyStr.contains "." poolName = false ->
  Forall (fun v => PyStr.contains "." v = false) vs ->
  listdir w (Flocker.mountRoot (Flocker.init poolName))
  = map (fun v => PyStr.join "." [poolName; v; "trunk"]) vs ->
  (forall v tr,
      snd (Flocker.createVolume w (Flocker.init poolName) v tr)
      = tr ++ [["zfs"; "create";
                (poolName ++ "/" ++ PyStr.join "." [poolName; v; "trunk"])%string]])
  /\ Flocker.listVolumes w (Flocker.init poolName)
     = Ok (map (fun v => v ++ "/trunk")%string vs).
Proof.
  intros Hp Hvs Hls. split; [reflexivity|].
  unfold Flocker.listVolumes. rewrite Hls.
  now rewrite (listVolumes_loop_created poolName vs [] Hp Hvs).
Qed.

Lemma listVolumes_of_created_witness :
  Flocker.listVolumes (world_listing ["pool1.db.trunk"; "pool1.web.trunk"])
                      (Flocker.init "pool1")
  = Ok ["db/trunk"; "web/trunk"].
Proof.
  apply (listVolumes_of_created
           (world_listing ["pool1.db.trunk"; "pool1.web.trunk"])
           "pool1" ["db"; "web"]).
  - reflexivity.
  - repeat constructor.
  - reflexivity.
Defined.

(** X8: a dot inside a field breaks the listing.  When the mount root has
    the entry of a branch one of whose fields holds a dot, such as the trunk
    [createVolume] makes for a volume name with a dot, [listVolumes] raises
    [TypeError] and lists nothing. *)
Theorem listVolumes_dotted_field (w : World) (self : Flocker.t)
    (id : FlockerBranch.t) :
  Exists (fun tok => PyStr.contains "." tok = true) (FlockerBranch.fields id) ->
  In (PyStr.join "." (FlockerBranch.fields id))
     (listdir w (Flocker.mountRoot self)) ->
  Flocker.listVolumes w self = Raise TypeError.
Proof.
  destruct id as [f v b]. unfold FlockerBranch.fields.
  cbn [FlockerBranch.flockerName FlockerBranch.volume FlockerBranch.branch].
  intros Hex Hin. unfold Flocker.listVolumes.
  apply listVolumes_loop_malformed.
  apply (forallb_false_in _ _ _ Hin).
  assert (Hc : 3 <= PyStr.count "." (PyStr.join "." [f; v; b])).
  { unfold PyStr.join. simpl String.concat.
    rewrite !count_app. simpl.
    assert (1 <= PyStr.count "." f + PyStr.count "." v + PyStr.count "." b).
    { rewrite !Exists_cons, Exists_nil in Hex.
      destruct Hex as [H|[H|[H|[]]]]; apply contains_true_count in H; lia. }
    rewrite count_app. simpl. lia. }
  assert (Hd : PyStr.contains "." (PyStr.join "." [f; v; b]) = true)
    by (apply count_contains_true; lia).
  unfold well_formed_entry. rewrite Hd, split_length_count. cbn [negb orb].
  apply Nat.eqb_neq. lia.
Qed.

Lemma listVolumes_dotted_field_witness :
  Flocker.listVolumes (world_listing ["pool1.db.trunk"; "pool1.my.db.trunk"])
                      (Flocker.init "pool1")
  = Raise TypeError.
Proof.
  apply (listVolumes_dotted_field
           (world_listing ["pool1.db.trunk"; "pool1.my.db.trunk"])
           (Flocker.init "pool1") (FlockerBranch.mk "pool1" "my.db" "trunk")).
  - apply Exists_cons_tl, Exists_cons_hd. reflexivity.
  - simpl. right. left. reflexivity.
Defined.

(** ** More on branching *)

(** X9: when the two branches are of the same volume and the snapshot
    command fails, [branchOffBranch] stops there: the snapshot is the only
    command run, no clone is attempted, and the caller gets the
    [CalledProcessError] of the snapshot. *)
Theorem branchOffBranch_snapshot_fails (w : World) (self : Flocker.t)
    (newBranch fromBranch : FlockerBranch.t) (tr : trace) :
  let snapshot :=
    ["zfs"; "snapshot";
     (FlockerBranch.datasetName fromBranch (Flocker.poolName self)
      ++ "@" ++ FlockerBranch.branch newBranch)%string] in
  FlockerBranch.volume newBranch = FlockerBranch.volume fromBranch ->
  exit_status w tr snapshot <> 0%Z ->
  Flocker.branchOffBranch w self newBranch fromBranch tr
  = (Raise (CalledProcessError (exit_status w tr snapshot) snapshot),
     tr ++ [snapshot]).
Proof.
  intros snapshot Hvol Hsnap.
  rewrite (branchOffBranch_same_volume w self newBranch fromBranch Hvol).
  apply bind_raise. apply zfs_fails. exact Hsnap.
Qed.

Lemma branchOffBranch_snapshot_fails_witness :
  Flocker.branchOffBranch snapshot_fails_world (Flocker.init "pool1")
    (FlockerBranch.mk "pool1" "db" "feature")
    (FlockerBranch.mk "pool1" "db" "trunk") []
  = (Raise (CalledProcessError 1
              ["zfs"; "snapshot"; "pool1/pool1.db.trunk@feature"]),
     [["zfs"; "snapshot"; "pool1/pool1.db.trunk@feature"]]).
Proof.
  apply (branchOffBranch_snapshot_fails snapshot_fails_world
           (Flocker.init "pool1")
           (FlockerBranch.mk "pool1" "db" "feature")
           (FlockerBranch.mk "pool1" "db" "trunk") []).
  - reflexivity.
  - vm_compute. discriminate.
Defined.

(** X10: [branchOffBranch] returns normally only after the whole protocol:
    if it does, the two branches are of the same volume, the commands run
    are the snapshot and then the clone, and both exited with status 0. *)
Theorem branchOffBranch_returns (w : World) (self : Flocker.t)
    (newBranch fromBranch : FlockerBranch.t) (tr tr' : trace) :
  let snapshotName :=
    (FlockerBranch.datasetName fromBranch (Flocker.poolName self)
     ++ "@" ++ FlockerBranch.branch newBranch)%string in
  let snapshot := ["zfs"; "snapshot"; snapshotName] in
  let clone :=
    ["zfs"; "clone"; snapshotName;
     FlockerBranch.datasetName newBranch (Flocker.poolName self)] in
  Flocker.branchOffBranch w self newBranch fromBranch tr = (Ok tt, tr') ->
  FlockerBranch.volume newBranch = FlockerBranch.volume fromBranch
  /\ tr' = tr ++ [snapshot; clone]
  /\ exit_status w tr snapshot = 0%Z
  /\ exit_status w (tr ++ [snapshot]) clone = 0%Z.
Proof.
  intros snapshotName snapshot clone H.
  destruct (String.eqb_spec (FlockerBranch.volume newBranch)
                            (FlockerBranch.volume fromBranch)) as [Hvol|Hvol].
  - rewrite (branchOffBranch_same_volume w self newBranch fromBranch Hvol) in H.
    fold snapshotName in H. unfold bind in H. rewrite !zfs_run in H.
    fold snapshot clone in H.
    destruct (Z.eqb_spec (exit_status w tr snapshot) 0) as [Hs|Hs];
      [|discriminate H].
    destruct (Z.eqb_spec (exit_status w (tr ++ [snapshot]) clone) 0) as [Hc|Hc];
      [|discriminate H].
    injection H as <-. rewrite <- app_assoc. auto.
  - unfold Flocker.branchOffBranch in H.
    destruct (String.eqb_spec (FlockerBranch.volume newBranch)
                              (FlockerBranch.volume fromBranch));
      [contradiction | discriminate H].
Qed.

Lemma branchOffBranch_returns_witness :
  FlockerBranch.volume (FlockerBranch.mk "pool1" "db" "feature")
  = FlockerBranch.volume (FlockerBranch.mk "pool1" "db" "trunk").
Proof.
  exact (proj1 (branchOffBranch_returns quiet_world (Flocker.init "pool1")
                  (FlockerBranch.mk "pool1" "db" "feature")
                  (FlockerBranch.mk "pool1" "db" "trunk") []
                  [["zfs"; "snapshot"; "pool1/pool1.db.trunk@feature"];
                   ["zfs"; "clone"; "pool1/pool1.db.trunk@feature";
                    "pool1/pool1.db.feature"]]
                  eq_refl)).
Defined.

(** * Properties of the command line *)

Section IOFacts.

Lemma io_bind_returned {A B} (m : IO A) (k : A -> IO B) (p p' : Process)
    (a : A) :
  m p = (Returned a, p') -> io_bind m k p = k a p'.
Proof. intros H. unfold io_bind. now rewrite H. Qed.

Lemma io_bind_raised {A B} (m : IO A) (k : A -> IO B) (p p' : Process)
    (e : cli_exn) :
  m p = (Raised e, p') -> io_bind m k p = (Raised e, p').
Proof. intros H. unfold io_bind. now rewrite H. Qed.

Lemma process_eta (p : Process) : mkProcess (commands p) (stdout p) = p.
Proof. now destruct p. Qed.

Lemma run_loop_prints (names : list string) (p : Process) :
  ListVolumesOptions.run_loop names p
  = (Returned tt, mkProcess (commands p) (stdout p ++ names)).
Proof.
  revert p. induction names as [|name names IH]; intros p; simpl.
  - unfold io_ret. now rewrite app_nil_r, process_eta.
  - unfold io_bind, print. rewrite IH. simpl. now rewrite <- app_assoc.
Qed.

End IOFacts.



Lemma fromBranchName_short (v b thisFlockerName : string) :
  PyStr.contains "/" v = false ->
  PyStr.contains "/" b = false ->
  FlockerBranch.fromBranchName (v ++ "/" ++ b) thisFlockerName
  = Ok (FlockerBranch.mk thisFlockerName v b).
Proof.
  intros Hv Hb. unfold FlockerBranch.fromBranchName.
  change (v ++ "/" ++ b)%string with (v ++ String "/" b)%string.
  rewrite (split_app_sep "/" v b Hv), (split_no_sep "/" b Hb). reflexivity.
Qed.

(** ** The branch sub-command *)

(** X11: [branch VOLUME/NEW --branch VOLUME/FROM], with names that hold no
    slash and an engine that accepts both commands, snapshots the dataset of
    the local branch FROM under the name NEW and clones that snapshot into
    the dataset of the local branch NEW, prints nothing and returns. *)
Theorem BranchOptions_run_protocol (w : World) (poolName v bf bn : string)
    (tg : option string) (p : Process) :
  let snapshotName :=
    (FlockerBranch.datasetName (FlockerBranch.mk poolName v bf) poolName
     ++ "@" ++ bn)%string in
  let snapshot := ["zfs"; "snapshot"; snapshotName] in
  let clone :=
    ["zfs"; "clone"; snapshotName;
     FlockerBranch.datasetName (FlockerBranch.mk poolName v bn) poolName] in
  PyStr.contains "/" v = false ->
  PyStr.contains "/" bf = false ->
  PyStr.contains "/" bn = false ->
  exit_status w (commands p) snapshot = 0%Z ->
  exit_status w (commands p ++ [snapshot]) clone = 0%Z ->
  BranchOptions.run w
    (BranchOptions.mk tg (Some (v ++ "/" ++ bf)%string) (v ++ "/" ++ bn)%string)
    (Flocker.init poolName) p
  = (Returned tt, mkProcess (commands p ++ [snapshot; clone]) (stdout p)).
Proof.
  intros snapshotName snapshot clone Hv Hbf Hbn Hs Hc.
  unfold BranchOptions.run.
  cbn [BranchOptions.branch BranchOptions.newBranchName Flocker.flockerName
       Flocker.init].
  rewrite (fromBranchName_short v bf poolName Hv Hbf),
          (fromBranchName_short v bn poolName Hv Hbn).
  unfold io_bind, of_outcome, run_M.
  rewrite (branchOffBranch_same_volume w (Flocker.init poolName)
             (FlockerBranch.mk poolName v bn) (FlockerBranch.mk poolName v bf)
             eq_refl).
  cbn [FlockerBranch.branch Flocker.poolName Flocker.init].
  fold snapshotName.
  rewrite (bind_ok _ _ (commands p) (commands p ++ [snapshot]) tt)
    by (apply zfs_succeeds; exact Hs).
  rewrite zfs_succeeds by exact Hc.
  now rewrite <- app_assoc.
Qed.

Lemma BranchOptions_run_protocol_witness :
  BranchOptions.run quiet_world
    (BranchOptions.mk None (Some "db/trunk") "db/feature")
    (Flocker.init "pool1") fresh
  = (Returned tt,
     mkProcess
       [["zfs"; "snapshot"; "pool1/pool1.db.trunk@feature"];
        ["zfs"; "clone"; "pool1/pool1.db.trunk@feature";
         "pool1/pool1.db.feature"]]
       []).
Proof.
  apply (BranchOptions_run_protocol quiet_world "pool1" "db" "trunk" "feature"
           None fresh); reflexivity.
Defined.



(** X13: references to branches of two different volumes make the branch
    sub-command raise the [ValueError] of [branchOffBranch], with no command
    run and nothing printed. *)
Theorem BranchOptions_run_cross_volume (w : World) (flocker : Flocker.t)
    (v bf v' bn : string) (tg : option string) (p : Process) :
  PyStr.contains "/" v = false ->
  PyStr.contains "/" bf = false ->
  PyStr.contains "/" v' = false ->
  PyStr.contains "/" bn = false ->
  v' <> v ->
  BranchOptions.run w
    (BranchOptions.mk tg (Some (v ++ "/" ++ bf)%string) (v' ++ "/" ++ bn)%string)
    flocker p
  = (Raised (Uncaught (ValueError "Can't create branches across volumes")), p).
Proof.
  intros Hv Hbf Hv' Hbn Hne. unfold BranchOptions.run.
  cbn [BranchOptions.branch BranchOptions.newBranchName].
  rewrite (fromBranchName_short v bf _ Hv Hbf),
          (fromBranchName_short v' bn _ Hv' Hbn).
  unfold io_bind, of_outcome, run_M, Flocker.branchOffBranch.
  cbn [FlockerBranch.volume].
  destruct (String.eqb_spec v' v) as [E|_]; [contradiction|].
  cbn [negb]. unfold raise. now rewrite process_eta.
Qed.

Lemma BranchOptions_run_cross_volume_witness :
  BranchOptions.run quiet_world
    (BranchOptions.mk None (Some "db/trunk") "web/feature")
    (Flocker.init "pool1") fresh
  = (Raised (Uncaught (ValueError "Can't create branches across volumes")),
     fresh).
Proof.
  apply (BranchOptions_run_cross_volume quiet_world (Flocker.init "pool1")
           "db" "trunk" "web" "feature" None fresh); try reflexivity.
  discriminate.
Defined.

(** X14: branching off a tag is not there.  Without a source branch the
    branch sub-command raises [NotImplementedError] and does nothing, a tag
    given or not; and whenever the options passed [postOptions] and [run]
    returned normally, a source branch was given and no tag was. *)
Theorem BranchOptions_needs_branch (w : World) (self : BranchOptions.t)
    (flocker : Flocker.t) (p : Process) :
  (BranchOptions.branch self = None ->
   BranchOptions.run w self flocker p
   = (Raised (NotImplementedError "tags don't work yet"), p))
  /\ (forall p' p'',
        BranchOptions.postOptions self p = (Returned tt, p') ->
        BranchOptions.run w self flocker p' = (Returned tt, p'') ->
        BranchOptions.tag self = None /\ BranchOptions.branch self <> None).
Proof.
  split.
  - intros Hb. unfold BranchOptions.run. now rewrite Hb.
  - intros p' p'' Hpost Hrun.
    unfold BranchOptions.postOptions in Hpost.
    unfold BranchOptions.run in Hrun.
    destruct (BranchOptions.branch self) as [b|]; [|discriminate Hrun].
    destruct (BranchOptions.tag self) as [t|]; [discriminate Hpost|].
    split; [reflexivity | discriminate].
Qed.

Lemma BranchOptions_needs_branch_witness :
  BranchOptions.run quiet_world (BranchOptions.mk (Some "v1") None "db/feature")
                    (Flocker.init "pool1") fresh
  = (Raised (NotImplementedError "tags don't work yet"), fresh).
Proof.
  exact (proj1 (BranchOptions_needs_branch quiet_world
                  (BranchOptions.mk (Some "v1") None "db/feature")
                  (Flocker.init "pool1") fresh) eq_refl).
Defined.

(** ** The list-volumes sub-command *)

(** X15: the list-volumes sub-command prints all or nothing.  When every
    entry of the mount root has no dot or exactly three tokens it prints the
    names of the entries with a dot, one line each, in the order of the
    listing; otherwise it raises [TypeError] with nothing printed, not even
    the names of the entries before the malformed one.  It runs no
    command. *)
Theorem ListVolumesOptions_run_prints (w : World) (flocker : Flocker.t)
    (p : Process) :
  ListVolumesOptions.run w flocker p
  = if forallb well_formed_entry (listdir w (Flocker.mountRoot flocker))
    then (Returned tt,
          mkProcess (commands p)
            (stdout p ++ spec_listVolumes (Flocker.flockerName flocker)
                           (listdir w (Flocker.mountRoot flocker))))
    else (Raised (Uncaught TypeError), p).
Proof.
  unfold ListVolumesOptions.run, Flocker.listVolumes, io_bind, of_outcome.
  destruct (forallb well_formed_entry (listdir w (Flocker.mountRoot flocker)))
    eqn:Hall.
  - rewrite (listVolumes_loop_well_formed flocker _ [] Hall).
    apply run_loop_prints.
  - now rewrite (listVolumes_loop_malformed flocker _ [] Hall).
Qed.

Example ListVolumesOptions_run_example :
  ListVolumesOptions.run
    (world_listing ["pool1.db.trunk"; "junkfile"; "pool2.shared.trunk"])
    (Flocker.init "pool1") fresh
  = (Returned tt, mkProcess [] ["db/trunk"; "pool2/shared/trunk"]).
Proof. reflexivity. Qed.

(** ** Commands stay inside the pool *)

Lemma prefix_app (a b : string) : String.prefix a (a ++ b) = true.
Proof.
  induction a as [|c a IH]; simpl; [now destruct b|].
  destruct (ascii_dec c c) as [_|Hc]; [exact IH | now destruct Hc].
Qed.

Lemma prefix_datasetName (id : FlockerBranch.t) (poolName rest : string) :
  String.prefix (poolName ++ "/")
                (FlockerBranch.datasetName id poolName ++ rest) = true.
Proof.
  unfold FlockerBranch.datasetName.
  rewrite <- (append_assoc poolName "/"), append_assoc. apply prefix_app.
Qed.

Lemma prefix_datasetName_nil (id : FlockerBranch.t) (poolName : string) :
  String.prefix (poolName ++ "/") (FlockerBranch.datasetName id poolName) = true.
Proof.
  unfold FlockerBranch.datasetName.
  rewrite <- (append_assoc poolName "/"). apply prefix_app.
Qed.

Lemma run_M_commands {A} (m : M A) (p : Process) :
  commands (snd (run_M m p)) = snd (m (commands p)).
Proof.
  unfold run_M. now destruct (m (commands p)) as [[a|e] tr].
Qed.

Lemma branchOffBranch_commands (w : World) (self : Flocker.t)
    (newBranch fromBranch : FlockerBranch.t) (tr : trace) :
  exists cmds,
    snd (Flocker.branchOffBranch w self newBranch fromBranch tr) = tr ++ cmds
    /\ forallb (within_pool (Flocker.poolName self)) cmds = true
    /\ length cmds <= 2.
Proof.
  destruct (String.eqb_spec (FlockerBranch.volume newBranch)
                            (FlockerBranch.volume fromBranch)) as [Hvol|Hvol].
  - rewrite (branchOffBranch_same_volume w self newBranch fromBranch Hvol).
    unfold bind. rewrite zfs_run.
    match goal with |- context [Z.eqb ?rc 0] => destruct (Z.eqb rc 0) end.
    + rewrite zfs_trace, <- app_assoc. eexists. split; [reflexivity|].
      split; [|simpl; lia].
      cbn [app forallb within_pool]. rewrite !prefix_datasetName.
      now rewrite prefix_datasetName_nil.
    + eexists. split; [reflexivity|]. split; [|simpl; lia].
      cbn [forallb within_pool]. now rewrite prefix_datasetName.
  - exists []. rewrite app_nil_r. unfold Flocker.branchOffBranch.
    destruct (String.eqb_spec (FlockerBranch.volume newBranch)
                              (FlockerBranch.volume fromBranch));
      [contradiction|]. simpl. auto.
Qed.

Lemma BranchOptions_run_commands (w : World) (self : BranchOptions.t)
    (flocker : Flocker.t) (p : Process) :
  exists cmds,
    commands (snd (BranchOptions.run w self flocker p)) = commands p ++ cmds
    /\ forallb (within_pool (Flocker.poolName flocker)) cmds = true
    /\ length cmds <= 2.
Proof.
  unfold BranchOptions.run.
  destruct (BranchOptions.branch self) as [b|];
    [|exists []; rewrite app_nil_r; simpl; auto].
  unfold io_bind, of_outcome.
  destruct (FlockerBranch.fromBranchName b (Flocker.flockerName flocker))
    as [fromBranch|e];
    [|exists []; rewrite app_nil_r; simpl; auto].
  destruct (FlockerBranch.fromBranchName (BranchOptions.newBranchName self)
                                         (Flocker.flockerName flocker))
    as [destinationBranch|e];
    [|exists []; rewrite app_nil_r; simpl; auto].
  rewrite run_M_commands. apply branchOffBranch_commands.
Qed.

Lemma ListVolumesOptions_run_commands (w : World) (flocker : Flocker.t)
    (p : Process) :
  commands (snd (ListVolumesOptions.run w flocker p)) = commands p.
Proof.
  unfold ListVolumesOptions.run, io_bind, of_outcome.
  destruct (Flocker.listVolumes w flocker) as [names|e]; [|reflexivity].
  now rewrite run_loop_prints.
Qed.

(** X16: given a pool, whatever the sub-command, its options, the engine and
    the mount root, [postOptions] adds at most two commands to those run,
    each a [zfs] command whose arguments after the verb start with the pool
    name and a slash: nothing outside the pool is named. *)
Theorem FlockerOptions_commands_within_pool (w : World) (opt_help : IO unit)
    (poolName : string) (sub : FlockerOptions.SubOptions) (p : Process) :
  exists cmds,
    commands (snd (FlockerOptions.postOptions w opt_help
                     (FlockerOptions.mk (Some poolName) (Some sub)) p))
    = commands p ++ cmds
    /\ forallb (within_pool poolName) cmds = true
    /\ length cmds <= 2.
Proof.
  unfold FlockerOptions.postOptions.
  cbn [FlockerOptions.subCommand FlockerOptions.pool].
  destruct sub as [o| |o|o|o|o]; cbn [FlockerOptions.subOptions_run];
    try (exists []; rewrite app_nil_r; simpl; auto; fail).
  - unfold CreateOptions.run. rewrite run_M_commands.
    unfold Flocker.createVolume. rewrite zfs_trace.
    eexists. split; [reflexivity|]. split; [|simpl; lia].
    cbn [forallb within_pool Flocker.poolName Flocker.init].
    now rewrite prefix_datasetName_nil.
  - exists []. rewrite app_nil_r, ListVolumesOptions_run_commands. simpl. auto.
  - apply (BranchOptions_run_commands w o (Flocker.init poolName) p).
Qed.


